(** * The Sphinx search index of the ropy documentation

    [searchindex.js] is one statement: a call of [Search.setIndex] on an
    object literal.  The literal is embedded below property by property, in
    source order; JavaScript numbers are [Z], arrays are lists, and objects
    are finite maps keyed by strings. *)

From Stdlib Require Import ZArith Ascii String List Lia.
From stdpp Require Import base list strings gmap pretty sorting.

Local Open Scope string_scope.
Local Open Scope Z_scope.

(** ** JavaScript values used by the literal *)

(** One property definition [k: v] of an object literal: it sets [k],
    overwriting an earlier definition of the same key. *)
Definition js_define {V : Type} (o : gmap string V) (kv : string * V) :
    gmap string V :=
  <[kv.1 := kv.2]> o.

(** An object literal [{k1: v1, ..., kn: vn}] defines its properties from left
    to right, starting from the empty object. *)
Definition js_object {V : Type} (props : list (string * V)) : gmap string V :=
  foldl js_define ∅ props.

(** [a[i]] on an array: [undefined] (here [None]) outside [0 .. length-1]. *)
Definition js_index {A : Type} (a : list A) (i : Z) : option A :=
  if (i <? 0) then None else a !! Z.to_nat i.

(** [o[n]] on an object with a number [n]: the key is [ToString(n)]. *)
Definition js_key (n : Z) : string := pretty n.

Definition js_prop {V : Type} (o : gmap string V) (n : Z) : option V :=
  o !! js_key n.

(** A value of [terms] and [titleterms]: a bare number or an array of numbers. *)
Inductive posting : Type :=
  | Doc (d : Z)
  | Docs (ds : list Z).

(** A value of the inner objects of [objects]: the 4-element array
    [[docindex, typeindex, priority, anchor]]. *)
Record objentry : Type := ObjEntry {
  obj_doc : Z;
  obj_type : Z;
  obj_prio : Z;
  obj_anchor : string
}.

(** A value of [objnames]: the 3-element array [[domain, type, description]]. *)
Record objname : Type := ObjName {
  on_domain : string;
  on_type : string;
  on_descr : string
}.

(** ** The properties of the literal, in source order *)

Definition docnames_literal : list string :=
  ["index"; "intro"; "roboticstoolbox"].

Definition envversion_literal : list (string * Z) :=
  [
   ("sphinx.domains.c", 2); ("sphinx.domains.changeset", 1); ("sphinx.domains.citation", 1);
   ("sphinx.domains.cpp", 3); ("sphinx.domains.index", 1); ("sphinx.domains.javascript", 2);
   ("sphinx.domains.math", 2); ("sphinx.domains.python", 2); ("sphinx.domains.rst", 2);
   ("sphinx.domains.std", 1); ("sphinx.ext.todo", 2); ("sphinx.ext.viewcode", 1);
   ("sphinx", 56)
  ].

Definition filenames_literal : list string :=
  ["index.rst"; "intro.rst"; "roboticstoolbox.rst"].

Definition objects_literal : list (string * gmap string objentry) :=
  [
   ("ropy.robot", js_object
    [
     ("Link", ObjEntry 2 0 0 "-"); ("Prismatic", ObjEntry 2 0 0 "-");
     ("Revolute", ObjEntry 2 0 0 "-"); ("SerialLink", ObjEntry 2 0 0 "-")
    ]);
   ("ropy.robot.Link", js_object
    [
     ("Link", ObjEntry 2 1 1 EmptyString)
    ]);
   ("ropy.robot.Link.Link", js_object
    [
     ("A", ObjEntry 2 2 1 EmptyString); ("B", ObjEntry 2 2 1 EmptyString);
     ("G", ObjEntry 2 2 1 EmptyString); ("I", ObjEntry 2 2 1 EmptyString);
     ("Jm", ObjEntry 2 2 1 EmptyString); ("Tc", ObjEntry 2 2 1 EmptyString);
     ("a", ObjEntry 2 2 1 EmptyString); ("alpha", ObjEntry 2 2 1 EmptyString);
     ("d", ObjEntry 2 2 1 EmptyString); ("dyn", ObjEntry 2 2 1 EmptyString);
     ("flip", ObjEntry 2 2 1 EmptyString); ("friction", ObjEntry 2 2 1 EmptyString);
     ("islimit", ObjEntry 2 2 1 EmptyString); ("isprismatic", ObjEntry 2 2 1 EmptyString);
     ("isrevolute", ObjEntry 2 2 1 EmptyString); ("m", ObjEntry 2 2 1 EmptyString);
     ("mdh", ObjEntry 2 2 1 EmptyString); ("nofriction", ObjEntry 2 2 1 EmptyString);
     ("offset", ObjEntry 2 2 1 EmptyString); ("qlim", ObjEntry 2 2 1 EmptyString);
     ("r", ObjEntry 2 2 1 EmptyString); ("sigma", ObjEntry 2 2 1 EmptyString);
     ("theta", ObjEntry 2 2 1 EmptyString)
    ]);
   ("ropy.robot.Prismatic", js_object
    [
     ("Prismatic", ObjEntry 2 1 1 EmptyString)
    ]);
   ("ropy.robot.Prismatic.Prismatic", js_object
    [
     ("A", ObjEntry 2 2 1 EmptyString); ("B", ObjEntry 2 2 1 EmptyString);
     ("G", ObjEntry 2 2 1 EmptyString); ("I", ObjEntry 2 2 1 EmptyString);
     ("Jm", ObjEntry 2 2 1 EmptyString); ("Tc", ObjEntry 2 2 1 EmptyString);
     ("a", ObjEntry 2 2 1 EmptyString); ("alpha", ObjEntry 2 2 1 EmptyString);
     ("d", ObjEntry 2 2 1 EmptyString); ("dyn", ObjEntry 2 2 1 EmptyString);
     ("flip", ObjEntry 2 2 1 EmptyString); ("friction", ObjEntry 2 2 1 EmptyString);
     ("islimit", ObjEntry 2 2 1 EmptyString); ("isprismatic", ObjEntry 2 2 1 EmptyString);
     ("isrevolute", ObjEntry 2 2 1 EmptyString); ("m", ObjEntry 2 2 1 EmptyString);
     ("mdh", ObjEntry 2 2 1 EmptyString); ("nofriction", ObjEntry 2 2 1 EmptyString);
     ("offset", ObjEntry 2 2 1 EmptyString); ("qlim", ObjEntry 2 2 1 EmptyString);
     ("r", ObjEntry 2 2 1 EmptyString); ("sigma", ObjEntry 2 2 1 EmptyString);
     ("theta", ObjEntry 2 2 1 EmptyString)
    ]);
   ("ropy.robot.Revolute", js_object
    [
     ("Revolute", ObjEntry 2 1 1 EmptyString)
    ]);
   ("ropy.robot.Revolute.Revolute", js_object
    [
     ("A", ObjEntry 2 2 1 EmptyString); ("B", ObjEntry 2 2 1 EmptyString);
     ("G", ObjEntry 2 2 1 EmptyString); ("I", ObjEntry 2 2 1 EmptyString);
     ("Jm", ObjEntry 2 2 1 EmptyString); ("Tc", ObjEntry 2 2 1 EmptyString);
     ("a", ObjEntry 2 2 1 EmptyString); ("alpha", ObjEntry 2 2 1 EmptyString);
     ("d", ObjEntry 2 2 1 EmptyString); ("dyn", ObjEntry 2 2 1 EmptyString);
     ("flip", ObjEntry 2 2 1 EmptyString); ("friction", ObjEntry 2 2 1 EmptyString);
     ("islimit", ObjEntry 2 2 1 EmptyString); ("isprismatic", ObjEntry 2 2 1 EmptyString);
     ("isrevolute", ObjEntry 2 2 1 EmptyString); ("m", ObjEntry 2 2 1 EmptyString);
     ("mdh", ObjEntry 2 2 1 EmptyString); ("nofriction", ObjEntry 2 2 1 EmptyString);
     ("offset", ObjEntry 2 2 1 EmptyString); ("qlim", ObjEntry 2 2 1 EmptyString);
     ("r", ObjEntry 2 2 1 EmptyString); ("sigma", ObjEntry 2 2 1 EmptyString);
     ("theta", ObjEntry 2 2 1 EmptyString)
    ]);
   ("ropy.robot.SerialLink", js_object
    [
     ("SerialLink", ObjEntry 2 1 1 EmptyString)
    ]);
   ("ropy.robot.SerialLink.SerialLink", js_object
    [
     ("A", ObjEntry 2 2 1 EmptyString); ("a", ObjEntry 2 2 1 EmptyString);
     ("accel", ObjEntry 2 2 1 EmptyString); ("allfkine", ObjEntry 2 2 1 EmptyString);
     ("base", ObjEntry 2 2 1 EmptyString); ("cinertia", ObjEntry 2 2 1 EmptyString);
     ("coriolis", ObjEntry 2 2 1 EmptyString); ("d", ObjEntry 2 2 1 EmptyString);
     ("delete_rne", ObjEntry 2 2 1 EmptyString); ("fkine", ObjEntry 2 2 1 EmptyString);
     ("friction", ObjEntry 2 2 1 EmptyString); ("gravity", ObjEntry 2 2 1 EmptyString);
     ("gravjac", ObjEntry 2 2 1 EmptyString); ("gravload", ObjEntry 2 2 1 EmptyString);
     ("ikcon", ObjEntry 2 2 1 EmptyString); ("ikine3", ObjEntry 2 2 1 EmptyString);
     ("ikine6s", ObjEntry 2 2 1 EmptyString); ("ikine", ObjEntry 2 2 1 EmptyString);
     ("ikinem", ObjEntry 2 2 1 EmptyString); ("ikunc", ObjEntry 2 2 1 EmptyString);
     ("inertia", ObjEntry 2 2 1 EmptyString); ("islimit", ObjEntry 2 2 1 EmptyString);
     ("isprismatic", ObjEntry 2 2 1 EmptyString); ("isrevolute", ObjEntry 2 2 1 EmptyString);
     ("isspherical", ObjEntry 2 2 1 EmptyString); ("itorque", ObjEntry 2 2 1 EmptyString);
     ("jacob0", ObjEntry 2 2 1 EmptyString); ("jacob0v", ObjEntry 2 2 1 EmptyString);
     ("jacobe", ObjEntry 2 2 1 EmptyString); ("jacobev", ObjEntry 2 2 1 EmptyString);
     ("jointdynamics", ObjEntry 2 2 1 EmptyString); ("links", ObjEntry 2 2 1 EmptyString);
     ("manuf", ObjEntry 2 2 1 EmptyString); ("mdh", ObjEntry 2 2 1 EmptyString);
     ("n", ObjEntry 2 2 1 EmptyString); ("name", ObjEntry 2 2 1 EmptyString);
     ("nofriction", ObjEntry 2 2 1 EmptyString); ("offset", ObjEntry 2 2 1 EmptyString);
     ("pay", ObjEntry 2 2 1 EmptyString); ("payload", ObjEntry 2 2 1 EmptyString);
     ("q", ObjEntry 2 2 1 EmptyString); ("qlim", ObjEntry 2 2 1 EmptyString);
     ("r", ObjEntry 2 2 1 EmptyString); ("rne", ObjEntry 2 2 1 EmptyString);
     ("theta", ObjEntry 2 2 1 EmptyString); ("todegrees", ObjEntry 2 2 1 EmptyString);
     ("tool", ObjEntry 2 2 1 EmptyString); ("toradians", ObjEntry 2 2 1 EmptyString);
     ("twists", ObjEntry 2 2 1 EmptyString)
    ])
  ].

Definition objnames_literal : list (string * objname) :=
  [
   ("0", ObjName "py" "module" "Python module"); ("1", ObjName "py" "class" "Python class");
   ("2", ObjName "py" "method" "Python method")
  ].

Definition objtypes_literal : list (string * string) :=
  [
   ("0", "py:module"); ("1", "py:class"); ("2", "py:method")
  ].

Definition terms_literal : list (string * posting) :=
  [
   ("1x1", Doc 2); ("1x2", Doc 2); ("1x6", Doc 2); ("1xm", Doc 2); ("1xn", Doc 2);
   ("2x1", Doc 2); ("3x3", Doc 1); ("3xm", Doc 2); ("3xn", Doc 1); ("4x4", Docs [1; 2]);
   ("4x4xm", Doc 2); ("6xn", Doc 2); ("6xnxm", Doc 2); ("abstract", Doc 1); ("boolean", Doc 2);
   ("case", Docs [1; 2]); ("class", Doc 0); ("default", Docs [1; 2]); ("final", Doc 2);
   ("float", Docs [1; 2]); ("function", Docs [0; 1]); ("import", Doc 1); ("int", Docs [1; 2]);
   ("new", Doc 1); ("null", Doc 2); ("return", Docs [1; 2]); ("super", Doc 1);
   ("true", Docs [1; 2]); ("For", Docs [1; 2]); ("Not", Doc 2); ("Such", Doc 2);
   ("The", Docs [1; 2]); ("There", Doc 1); ("These", Doc 1); ("Useful", Docs [1; 2]);
   ("Uses", Doc 2); ("Using", Doc 1); ("__add__", Doc 1); ("__iadd__", Doc 1);
   ("__imul__", Doc 1); ("__ipow__", Doc 1); ("__isub__", Doc 1); ("__itruediv__", Doc 1);
   ("__mul__", Doc 1); ("__pow__", Doc 1); ("__radd__", Doc 1); ("__rmul__", Doc 1);
   ("__rsub__", Doc 1); ("__sub__", Doc 1); ("__truediv__", Doc 1); ("abil", Doc 1);
   ("about", Docs [1; 2]); ("abov", Docs [1; 2]); ("absolut", Doc 2); ("accel", Doc 2);
   ("acceler", Doc 2); ("accept", Doc 1); ("achiev", Doc 2); ("act", Docs [1; 2]);
   ("actuat", Doc 2); ("add", Docs [1; 2]); ("added", Docs [1; 2]); ("addit", Doc 1);
   ("adjust", Docs [1; 2]); ("adopt", Doc 1); ("again", Doc 1); ("all", Docs [1; 2]);
   ("allfkin", Doc 2); ("allow", Docs [1; 2]); ("along", Doc 2); ("alpha", Doc 2);
   ("also", Docs [1; 2]); ("alwai", Docs [1; 2]); ("analyt", Doc 2); ("angl", Doc 2);
   ("ani", Docs [1; 2]); ("anoth", Doc 1); ("append", Doc 1); ("appli", Docs [1; 2]);
   ("applic", Docs [1; 2]); ("approach", Docs [1; 2]); ("appropri", Docs [1; 2]);
   ("arang", Doc 1); ("arbitrari", Doc 2); ("arbitrarili", Doc 2); ("argument", Doc 1);
   ("arithmet", Doc 1); ("arm", Doc 2); ("armatur", Doc 2); ("arrai", Docs [1; 2]);
   ("array_lik", Doc 1); ("arrow", Doc 1); ("asm", Doc 2); ("aspect", Doc 1);
   ("assign", Docs [1; 2]); ("associ", Doc 1); ("assum", Doc 2); ("attempt", Doc 2);
   ("author", Doc 2); ("autosc", Doc 1); ("avail", Doc 1); ("axes", Docs [1; 2]);
   ("axi", Docs [1; 2]); ("back", Doc 1); ("backend", Doc 1); ("balanc", Doc 1);
   ("base", Docs [1; 2]); ("becaus", Doc 1); ("becom", Doc 2); ("been", Doc 2);
   ("befor", Doc 2); ("being", Docs [1; 2]); ("belong", Doc 1); ("between", Doc 2);
   ("binari", Doc 1); ("bodi", Doc 2); ("bold", Doc 1); ("bool", Doc 2); ("both", Doc 1);
   ("brute", Doc 2); ("bundl", Doc 1); ("calcul", Doc 2); ("call", Doc 1);
   ("can", Docs [1; 2]); ("cartesian", Doc 2); ("centr", Doc 2); ("centripet", Doc 2);
   ("chain", Doc 2); ("chap", Doc 2); ("check", Doc 2); ("choic", Doc 2); ("chosen", Doc 2);
   ("cinertia", Doc 2); ("clear", Doc 1); ("code", Doc 2); ("col", Doc 2); ("color", Doc 1);
   ("column", Docs [1; 2]); ("com", Doc 2); ("combin", Doc 1); ("common", Docs [1; 2]);
   ("compar", Doc 2); ("complet", Doc 2); ("composit", Doc 1); ("comprehens", Doc 1);
   ("comput", Doc 2); ("computation", Doc 2); ("concret", Doc 2); ("condit", Doc 2);
   ("configur", Doc 2); ("congruent", Doc 2); ("conjunct", Doc 2); ("consecut", Docs [1; 2]);
   ("consid", Doc 2); ("consider", Docs [1; 2]); ("constant", Docs [1; 2]);
   ("constraint", Doc 1); ("construct", Doc 1); ("contai", Doc 1); ("contain", Docs [1; 2]);
   ("continu", Doc 2); ("contraint", Doc 2); ("contribut", Doc 2); ("control", Doc 2);
   ("conveni", Doc 1); ("convert", Docs [1; 2]); ("coordin", Docs [1; 2]);
   ("copi", Docs [1; 2]); ("corioli", Doc 2); ("cork", Doc 2); ("correspond", Doc 2);
   ("cos", Doc 1); ("could", Doc 1); ("coulomb", Doc 2); ("coupl", Doc 2); ("creat", Doc 1);
   ("current", Doc 2); ("deal", Doc 1); ("defin", Doc 2); ("deg", Docs [1; 2]);
   ("degre", Docs [1; 2]); ("del", Doc 1); ("delete_rn", Doc 2); ("denavit", Doc 2);
   ("depend", Docs [1; 2]); ("deriv", Docs [1; 2]); ("describ", Docs [1; 2]); ("desir", Doc 2);
   ("determin", Doc 2); ("develop", Doc 2); ("diagon", Doc 2); ("dict", Doc 1);
   ("differ", Doc 1); ("difficult", Doc 2); ("dim", Doc 1); ("dimens", Docs [1; 2]);
   ("dimension", Doc 1); ("direct", Doc 2); ("disabl", Doc 2); ("displai", Doc 1);
   ("distanc", Doc 2); ("disturb", Doc 2); ("document", Doc 1); ("doe", Docs [1; 2]);
   ("dof", Doc 2); ("done", Doc 1); ("down", Doc 2); ("downsid", Doc 1); ("drawn", Doc 1);
   ("due", Doc 2); ("dunder", Doc 1); ("dyn", Doc 2); ("dynam", Doc 2); ("each", Docs [1; 2]);
   ("effect", Doc 2); ("effector", Doc 2); ("effici", Doc 2); ("either", Docs [1; 2]);
   ("elbow", Doc 2); ("elbow_up", Doc 2); ("element", Docs [1; 2]); ("elementwis", Doc 1);
   ("elimin", Doc 2); ("elment", Doc 1); ("els", Doc 2); ("enabl", Doc 1); ("encount", Doc 2);
   ("end", Doc 2); ("enforc", Docs [1; 2]); ("ensur", Doc 1); ("entir", Docs [1; 2]);
   ("enumer", Doc 1); ("environ", Doc 1); ("equal", Doc 2); ("equat", Doc 2);
   ("equival", Docs [1; 2]); ("err", Doc 2); ("error", Doc 2); ("estim", Doc 2);
   ("eul", Doc 1); ("evalu", Doc 2); ("everi", Doc 1); ("exampl", Docs [1; 2]);
   ("exceed", Doc 2); ("except", Docs [1; 2]); ("exist", Doc 1); ("explicit", Doc 2);
   ("explicitli", Doc 2); ("exponenti", Doc 1); ("express", Docs [1; 2]); ("extend", Doc 1);
   ("extra", Doc 1); ("extract", Doc 1); ("eye", Doc 2); ("fail", Doc 2); ("fals", Doc 2);
   ("familiar", Doc 1); ("faster", Doc 2); ("feasibl", Doc 2); ("featherston", Doc 2);
   ("fewer", Doc 2); ("fext", Doc 2); ("figur", Doc 1); ("first", Docs [1; 2]);
   ("fkine", Doc 2); ("flip", Doc 2); ("forc", Doc 2); ("form", Docs [1; 2]);
   ("format", Doc 2); ("formula", Doc 2); ("forward", Doc 2); ("found", Doc 2);
   ("four", Doc 1); ("frame", Docs [1; 2]); ("free", Doc 2); ("freedom", Doc 2);
   ("frequent", Doc 1); ("friction", Doc 2); ("from", Docs [1; 2]); ("gain", Doc 2);
   ("gear", Doc 2); ("gearbox", Doc 2); ("gener", Doc 2); ("generalis", Doc 2);
   ("give", Doc 1); ("given", Docs [1; 2]); ("gnarli", Doc 1); ("grav", Doc 2);
   ("gravit", Doc 2); ("graviti", Doc 2); ("gravjac", Doc 2); ("gravload", Doc 2);
   ("green", Doc 1); ("grid", Doc 1); ("group", Doc 1); ("guarante", Doc 1); ("guess", Doc 2);
   ("hamilton", Doc 1); ("happen", Doc 2); ("hartenberg", Doc 2); ("has", Docs [1; 2]);
   ("have", Docs [1; 2]); ("haviland", Doc 2); ("here", Doc 1); ("high", Doc 0);
   ("highli", Doc 2); ("hold", Docs [1; 2]); ("homogen", Docs [1; 2]); ("homogenen", Doc 2);
   ("howev", Doc 1); ("hutchinson", Doc 2); ("ident", Doc 1); ("identifi", Doc 2);
   ("ignor", Doc 2); ("ikcon", Doc 2); ("ikin", Doc 2); ("ikine3", Doc 2); ("ikine6", Doc 2);
   ("ikine_sym", Doc 2); ("ikinem", Doc 2); ("ikunc", Doc 2); ("ilimit", Doc 2);
   ("implement", Doc 2); ("impos", Doc 2); ("includ", Docs [1; 2]); ("incorpor", Doc 2);
   ("index", Doc 1); ("indic", Doc 2); ("industri", Doc 2); ("inerti", Doc 2);
   ("inertia", Doc 2); ("inform", Docs [1; 2]); ("inherit", Doc 1); ("initi", Doc 2);
   ("initialis", Doc 2); ("input", Docs [1; 2]); ("insert", Doc 1); ("instal", Doc 1);
   ("instanc", Doc 1); ("instead", Doc 2); ("integr", Doc 2); ("intend", Doc 2);
   ("intern", Doc 2); ("interpret", Doc 2); ("intersect", Doc 2); ("introduct", Doc 0);
   ("inv", Docs [1; 2]); ("invers", Docs [1; 2]); ("invoc", Doc 2); ("invok", Doc 1);
   ("involv", Doc 2); ("islimit", Doc 2); ("isprismat", Doc 2); ("isrevolut", Doc 2);
   ("isspher", Doc 2); ("item", Doc 1); ("iter", Docs [1; 2]); ("itorqu", Doc 2);
   ("jacob0", Doc 2); ("jacob0v", Doc 2); ("jacob", Doc 2); ("jacobev", Doc 2);
   ("jacobian", Doc 2); ("jess", Doc 2); ("joint", Doc 2); ("jointdynam", Doc 2);
   ("jointlimit", Doc 2); ("journa", Doc 2); ("journal", Doc 2); ("just", Doc 1);
   ("keep", Doc 1); ("keyword", Doc 1); ("kind", Doc 2); ("kinemat", Doc 2); ("known", Doc 2);
   ("kr5", Doc 2); ("kuka", Doc 2); ("lambda", Doc 2); ("larg", Doc 2); ("last", Docs [1; 2]);
   ("latter", Doc 1); ("left", Docs [1; 2]); ("lefti", Doc 2); ("len", Doc 1);
   ("length", Docs [1; 2]); ("less", Doc 2); ("let", Doc 1); ("level", Doc 0);
   ("levenberg", Doc 2); ("like", Docs [1; 2]); ("limit", Doc 2); ("line", Docs [1; 2]);
   ("linear", Doc 2); ("link", Doc 0); ("list", Doc 2); ("lmfsolv", Doc 2); ("load", Doc 2);
   ("locaat", Doc 2); ("local", Doc 2); ("locat", Doc 2); ("low", Doc 0); ("mai", Doc 1);
   ("mani", Doc 2); ("manipul", Docs [1; 2]); ("manuf", Doc 2); ("manufactur", Doc 2);
   ("map", Docs [1; 2]); ("marquadt", Doc 2); ("mask", Doc 2); ("mass", Doc 2);
   ("math", Doc 0); ("mathbb", Doc 1); ("mathemat", Doc 1); ("matplotlib", Doc 1);
   ("matric", Docs [1; 2]); ("matrix", Docs [1; 2]); ("max", Doc 2); ("maximum", Doc 2);
   ("mdh", Doc 2); ("mean", Docs [1; 2]); ("measur", Doc 2); ("mechan", Doc 2);
   ("memori", Doc 2); ("merit", Doc 1); ("method", Docs [1; 2]); ("might", Doc 2);
   ("min", Doc 2); ("minim", Docs [1; 2]); ("minimis", Doc 2); ("minimum", Doc 2);
   ("mix", Doc 1); ("mixtur", Doc 1); ("model", Doc 2); ("modifi", Doc 2); ("modul", Doc 1);
   ("more", Doc 2); ("most", Docs [1; 2]); ("motor", Doc 2); ("move", Docs [1; 2]);
   ("much", Docs [1; 2]); ("multi", Docs [1; 2]); ("multipl", Docs [1; 2]);
   ("multipli", Doc 1); ("must", Doc 2); ("name", Docs [1; 2]); ("namespa", Doc 1);
   ("ndarrai", Docs [1; 2]); ("ndash", Doc 1); ("need", Doc 1); ("neg", Doc 2);
   ("nfrobot", Doc 2); ("nofrict", Doc 2); ("nolm", Doc 2); ("non", Doc 2); ("nonam", Doc 2);
   ("none", Doc 2); ("nonlinear", Doc 2); ("norm", Docs [1; 2]); ("notat", Doc 1);
   ("note", Docs [1; 2]); ("now", Doc 1); ("number", Docs [1; 2]); ("numer", Docs [1; 2]);
   ("numpi", Docs [1; 2]); ("nxk", Doc 2); ("nxm", Docs [1; 2]); ("nxn", Doc 2);
   ("nxnxk", Doc 2); ("obei", Doc 1); ("object", Doc 2); ("obtain", Doc 2); ("off", Doc 2);
   ("offset", Doc 2); ("often", Docs [1; 2]); ("omega", Doc 2); ("one", Docs [1; 2]);
   ("onli", Docs [1; 2]); ("onlin", Doc 1); ("oper", Doc 2); ("operand", Doc 1);
   ("opposit", Doc 2); ("optim", Doc 2); ("optimis", Doc 2); ("option", Docs [1; 2]);
   ("order", Doc 1); ("orient", Docs [1; 2]); ("orin", Doc 2); ("orthogon", Doc 1);
   ("other", Docs [1; 2]); ("otherwis", Docs [1; 2]); ("output", Docs [1; 2]);
   ("over", Docs [1; 2]); ("overwrit", Doc 2); ("packag", Doc 1); ("pai", Doc 2);
   ("paramet", Doc 2); ("parent", Doc 1); ("particular", Doc 1); ("particularli", Doc 1);
   ("pass", Docs [1; 2]); ("paul", Doc 2); ("payload", Doc 2); ("peform", Doc 2);
   ("per", Doc 2); ("perform", Doc 1); ("plane", Doc 2); ("plot", Doc 1); ("plt", Doc 1);
   ("point", Docs [1; 2]); ("polymorph", Doc 1); ("poor", Doc 2); ("pop", Doc 1);
   ("pose", Doc 2); ("posese3", Doc 1); ("posit", Docs [1; 2]); ("possibl", Doc 1);
   ("power", Doc 1); ("present", Doc 2); ("previou", Doc 2); ("print", Doc 1);
   ("prismat", Doc 0); ("product", Docs [1; 2]); ("properti", Docs [1; 2]); ("proport", Doc 2);
   ("prototyp", Doc 2); ("provdid", Doc 1); ("provid", Doc 1); ("puma560", Doc 2);
   ("puma", Doc 2); ("pweight", Doc 2); ("python", Doc 1); ("qdd", Doc 2); ("qdeg", Doc 2);
   ("qlim", Doc 2); ("qlimit", Doc 2); ("qnorm", Doc 1); ("qprint", Doc 1); ("qqmul", Doc 1);
   ("qrad", Doc 2); ("quat", Doc 1); ("quick", Doc 1); ("radian", Doc 2); ("rais", Doc 1);
   ("rather", Doc 2); ("ratio", Doc 2); ("reach", Doc 2); ("read", Doc 1); ("recent", Doc 1);
   ("red", Doc 1); ("refer", Doc 2); ("reflect", Doc 2); ("regular", Doc 1); ("reject", Doc 2);
   ("rel", Doc 1); ("relat", Docs [1; 2]); ("relev", Doc 1); ("remov", Docs [1; 2]);
   ("repeat", Doc 1); ("replac", Doc 1); ("replic", Doc 1); ("repres", Docs [1; 2]);
   ("represent", Docs [1; 2]); ("requir", Docs [1; 2]); ("research", Doc 2);
   ("respect", Doc 2); ("result", Docs [1; 2]); ("retrun", Doc 2); ("revolut", Doc 0);
   ("right", Docs [1; 2]); ("righti", Doc 2); ("rigid", Doc 2); ("ring", Doc 1);
   ("rlimit", Doc 2); ("rne", Doc 2); ("robot", Docs [1; 2]); ("ropi", Doc 2);
   ("rotat", Docs [1; 2]); ("roti", Doc 1); ("rotx", Doc 1); ("row", Docs [1; 2]);
   ("rpy2r", Doc 1); ("rtbpose", Doc 1); ("rtype", Doc 2); ("rule", Doc 1); ("rviz", Doc 1);
   ("safeti", Doc 1); ("same", Docs [1; 2]); ("scalar", Docs [1; 2]); ("scalarto", Doc 1);
   ("scale", Doc 2); ("se2", Doc 1); ("se3", Docs [1; 2]); ("search", Doc 2);
   ("section", Docs [1; 2]); ("see", Doc 1); ("seen", Doc 2); ("semant", Doc 1);
   ("separ", Docs [1; 2]); ("sequenc", Docs [1; 2]); ("seri", Doc 2); ("serial", Doc 2);
   ("seriallink", Doc 0); ("set", Docs [1; 2]); ("sever", Doc 1); ("shape", Doc 1);
   ("should", Doc 2); ("shoulder", Doc 2); ("show", Docs [1; 2]); ("shown", Docs [1; 2]);
   ("sigma", Doc 2); ("sign", Doc 2); ("similar", Doc 1); ("similarli", Doc 1);
   ("simpl", Doc 1); ("simul", Doc 2); ("sin", Doc 1); ("sinc", Doc 2); ("singl", Doc 1);
   ("singular", Doc 2); ("six", Doc 2); ("size", Doc 2); ("slam", Doc 1); ("slice", Doc 1);
   ("slimit", Doc 2); ("slow", Doc 2); ("smooth", Doc 2); ("so2", Doc 1); ("so3", Doc 1);
   ("solut", Doc 2); ("solv", Doc 2); ("solver", Doc 2); ("some", Docs [1; 2]);
   ("somewhat", Doc 1); ("sourc", Doc 2); ("space", Docs [1; 2]); ("span", Doc 2);
   ("spatial", Docs [0; 2]); ("spatialmath", Doc 1); ("specif", Doc 2); ("specifi", Doc 2);
   ("spheric", Doc 2); ("spong", Doc 2); ("springer", Doc 2); ("standard", Docs [1; 2]);
   ("stanford", Doc 2); ("state", Doc 2); ("step", Doc 2); ("stiff", Doc 2); ("stop", Doc 1);
   ("store", Doc 2); ("string", Docs [1; 2]); ("style", Doc 1); ("subclass", Docs [1; 2]);
   ("subtract", Doc 1); ("success", Doc 2); ("sum", Doc 1); ("summer", Doc 2);
   ("sumsqr", Doc 2); ("superclass", Doc 2); ("suppli", Doc 2); ("support", Doc 2);
   ("sym", Doc 1); ("symbol", Doc 2); ("symmetr", Doc 2); ("sympi", Doc 1); ("system", Doc 2);
   ("tai", Doc 2); ("taken", Docs [1; 2]); ("tall", Doc 2); ("tau", Doc 2); ("taub", Doc 2);
   ("taug", Doc 2); ("taui", Doc 2); ("tb_optpars", Doc 1); ("tension", Doc 1);
   ("term", Doc 2); ("test", Doc 2); ("than", Doc 2); ("thei", Doc 1); ("them", Doc 1);
   ("theta", Docs [1; 2]); ("thi", Docs [1; 2]); ("thing", Doc 1); ("third", Docs [1; 2]);
   ("those", Doc 2); ("though", Doc 2); ("three", Doc 2); ("through", Doc 2);
   ("time", Docs [1; 2]); ("tjhe", Doc 1); ("todegre", Doc 2); ("tol", Doc 2);
   ("toler", Doc 2); ("tool", Doc 2); ("toolbox", Doc 1); ("toradian", Doc 2);
   ("torqu", Doc 2); ("traceback", Doc 1); ("trajecotri", Doc 2); ("trajectori", Docs [1; 2]);
   ("transfer", Doc 2); ("transform", Docs [1; 2]); ("transl2", Doc 1); ("transl", Doc 1);
   ("translat", Doc 2); ("transmiss", Doc 2); ("transpos", Doc 2); ("trap", Doc 2);
   ("treat", Doc 2); ("tricki", Doc 2); ("trot2", Doc 1); ("trotx", Doc 1); ("trplot2", Doc 1);
   ("trplot", Doc 1); ("tupl", Docs [1; 2]); ("ture", Doc 2); ("twist", Doc 2); ("two", Doc 1);
   ("twolink", Doc 2); ("type", Docs [1; 2]); ("typeerror", Doc 1); ("typic", Doc 1);
   ("unchang", Doc 2); ("under", Doc 2); ("underactu", Doc 2); ("underpin", Doc 1);
   ("unimport", Doc 2); ("uniqu", Doc 2); ("unitquaternion", Doc 1); ("upsid", Doc 1);
   ("use", Docs [1; 2]); ("used", Docs [1; 2]); ("useful", Doc 2); ("userlist", Doc 1);
   ("uses", Doc 2); ("using", Docs [1; 2]); ("valid", Doc 1); ("valu", Docs [1; 2]);
   ("valueerror", Doc 1); ("variabl", Docs [1; 2]); ("varieti", Doc 1); ("variou", Doc 2);
   ("vector", Doc 2); ("veloc", Doc 2); ("veri", Doc 2); ("vialat", Doc 2);
   ("vidyasagar", Doc 2); ("viscou", Doc 2); ("vision", Docs [1; 2]); ("vol", Doc 2);
   ("wai", Doc 1); ("walker", Doc 2); ("weight", Doc 2); ("well", Doc 1); ("went", Doc 2);
   ("what", Docs [1; 2]); ("when", Docs [1; 2]); ("where", Docs [1; 2]);
   ("which", Docs [1; 2]); ("width", Doc 1); ("wilei", Doc 2); ("wise", Doc 1);
   ("wish", Doc 1); ("within", Doc 2); ("without", Doc 2); ("work", Docs [1; 2]);
   ("workspac", Doc 1); ("world", Docs [1; 2]); ("would", Doc 1); ("wrench", Doc 2);
   ("wrist", Doc 2); ("wrist_flip", Doc 2); ("write", Doc 1); ("wrong", Doc 2);
   ("yet", Docs [1; 2]); ("ymin", Doc 2); ("you", Doc 1); ("zero", Docs [1; 2]);
   ("zhang", Doc 2); ("zip", Doc 1)
  ].

Definition titles_literal : list string :=
  ["Robotics Toolbox for Python"; "Introduction"; "Classes and functions"].

Definition titleterms_literal : list (string * posting) :=
  [
   ("class", Docs [1; 2]); ("function", Doc 2); ("capabl", Doc 1); ("compat", Doc 1);
   ("graphic", Doc 1); ("high", Doc 1); ("introduct", Doc 1); ("level", Doc 1);
   ("link", Doc 2); ("list", Doc 1); ("low", Doc 1); ("math", Doc 1); ("matlab", Doc 1);
   ("object", Doc 1); ("oper", Doc 1); ("pose", Doc 1); ("prismat", Doc 2); ("python", Doc 0);
   ("quaternion", Doc 1); ("revolut", Doc 2); ("robot", Doc 0); ("seriallink", Doc 2);
   ("spatial", Doc 1); ("support", Doc 1); ("symbol", Doc 1); ("toolbox", Doc 0);
   ("unit", Doc 1); ("vector", Doc 1)
  ].

(** ** The index object *)

Record SearchIndex : Type := {
  docnames : list string;
  envversion : gmap string Z;
  filenames : list string;
  objects : gmap string (gmap string objentry);
  objnames : gmap string objname;
  objtypes : gmap string string;
  terms : gmap string posting;
  titles : list string;
  titleterms : gmap string posting
}.

(** The argument of the call: [{docnames: [...], envversion: {...}, ...}]. *)
Definition index_literal : SearchIndex := {|
  docnames := docnames_literal;
  envversion := js_object envversion_literal;
  filenames := filenames_literal;
  objects := js_object objects_literal;
  objnames := js_object objnames_literal;
  objtypes := js_object objtypes_literal;
  terms := js_object terms_literal;
  titles := titles_literal;
  titleterms := js_object titleterms_literal
|}.

(** The documents a posting stands for: a bare number is one document. *)
Definition posting_docs (p : posting) : list Z :=
  match p with
  | Doc d => [d]
  | Docs ds => ds
  end.

(** [a.indexOf(x)]: the first position holding [x], or [-1]. *)
Fixpoint js_indexOf (a : list string) (x : string) : Z :=
  match a with
  | [] => -1
  | y :: a' =>
      if decide (y = x) then 0
      else let r := js_indexOf a' x in if (r <? 0) then -1 else r + 1
  end.

(** [d] is a position of the [docnames] array. *)
Definition valid_doc (idx : SearchIndex) (d : Z) : Prop :=
  0 ≤ d < Z.of_nat (length (docnames idx)).

#[global] Instance valid_doc_dec idx d : Decision (valid_doc idx d).
Proof. unfold valid_doc. apply _. Defined.

(** Whether a posting is written as a bare number. *)
Definition stored_bare (p : posting) : bool :=
  match p with
  | Doc _ => true
  | Docs _ => false
  end.


(** ** The consumer of the index *)

(** How a query word is compared with an indexed term. *)
Inductive match_mode : Type := Exact | Prefix.

Definition term_matches (m : match_mode) (query key : string) : bool :=
  match m with
  | Exact => bool_decide (key = query)
  | Prefix => String.prefix query key
  end.

(** Modelled from the spec: the lookup over the term index, which the
    repository keeps outside [searchindex.js].  Given a search term it returns
    the set of documents whose indexed terms match it, exactly or by prefix,
    without ranking. *)
Definition lookup_terms (m : match_mode) (tm : gmap string posting)
    (query : string) : gset Z :=
  ⋃ ((fun kp => list_to_set (posting_docs kp.2)) <$>
       filter (fun kp => term_matches m query kp.1 = true) (map_to_list tm)).

Module Search.

(** Modelled from the spec: the [Search] object that [searchindex.js] calls;
    its state is the index handed over by [setIndex], if any. *)
Record t : Type := { _index : option SearchIndex }.

Definition init : t := {| _index := None |}.

(** Modelled from the spec: [setIndex] installs the generated index. *)
Definition setIndex (index : SearchIndex) (s : t) : t :=
  {| _index := Some index |}.

(** Modelled from the spec: a lookup reads the installed index and hands the
    state on; with no index installed nothing is found. *)
Definition lookup (m : match_mode) (query : string) (s : t) : gset Z * t :=
  match _index s with
  | Some index => (lookup_terms m (terms index) query, s)
  | None => (∅, s)
  end.

End Search.

(** [searchindex.js]: the single statement [Search.setIndex({...})]. *)
Definition searchindex_js (s : Search.t) : Search.t :=
  Search.setIndex index_literal s.

(** The state of the search page once the file has been loaded. *)
Definition loaded : Search.t := searchindex_js Search.init.

(** The result of looking [query] up on the loaded page. *)
Definition lookup_loaded (m : match_mode) (query : string) : gset Z :=
  (Search.lookup m query loaded).1.

(** ** Reading the object index *)

(** The full name of the object [name] listed under [prefix]. *)
Definition qualified (prefix name : string) : string :=
  prefix +:+ "." +:+ name.

(** [objects[prefix][name]], when both properties exist. *)
Definition object_entry (idx : SearchIndex) (prefix name : string) :
    option objentry :=
  inner ← objects idx !! prefix; inner !! name.

(** The objects listed under [prefix]; none when [prefix] is not a key. *)
Definition object_members (idx : SearchIndex) (prefix : string) :
    gmap string objentry :=
  default ∅ (objects idx !! prefix).

(** The documents of the title posting of [word]; none when there is none. *)
Definition title_docs (idx : SearchIndex) (word : string) : list Z :=
  default [] (posting_docs <$> titleterms idx !! word).

(** An ASCII letter, digit or underscore. *)
Definition word_char (c : ascii) : bool :=
  let n := nat_of_ascii c in
  ((48 <=? n) && (n <=? 57) || (65 <=? n) && (n <=? 90) ||
   (97 <=? n) && (n <=? 122) || (n =? 95))%nat.

(** A word of at least three such characters. *)
Definition indexed_word (w : string) : Prop :=
  (3 ≤ String.length w)%nat ∧
  Forall (fun c => word_char c = true) (list_ascii_of_string w).

#[global] Instance indexed_word_dec w : Decision (indexed_word w).
Proof. unfold indexed_word. apply _. Defined.

(** * Properties *)

(** Closes a decidable statement about the literal by evaluating its decision
    procedure. *)
Ltac by_evaluation := apply (bool_decide_unpack _); vm_compute; exact I.

(** ** Object literals *)

Section js_object.
Context {V : Type}.
Implicit Types (props : list (string * V)) (o : gmap string V).

Lemma js_define_all_lookup_Some props o k v :
  foldl js_define o props !! k = Some v → (k, v) ∈ props ∨ o !! k = Some v.
Proof.
  revert o. induction props as [|[k' v'] props IH]; intros o; simpl.
  - by right.
  - intros [Hin|Hhd]%IH.
    + left. by apply elem_of_cons; right.
    + unfold js_define in Hhd. apply lookup_insert_Some in Hhd as [[Hk Hv]|[_ ?]]; simpl in *.
      * subst. left. apply elem_of_cons; by left.
      * by right.
Qed.

Lemma js_define_all_lookup_fresh props o k :
  k ∉ props.*1 → foldl js_define o props !! k = o !! k.
Proof.
  revert o. induction props as [|[k' v'] props IH]; intros o Hk; simpl in *.
  - done.
  - apply not_elem_of_cons in Hk as [Hne Hk].
    rewrite IH by done. unfold js_define. by apply lookup_insert_ne.
Qed.

Lemma js_define_all_lookup_NoDup props o k v :
  NoDup props.*1 → (k, v) ∈ props → foldl js_define o props !! k = Some v.
Proof.
  revert o. induction props as [|[k' v'] props IH]; intros o Hnd Hin.
  - by apply elem_of_nil in Hin.
  - simpl in Hnd. apply NoDup_cons in Hnd as [Hfresh Hnd].
    apply elem_of_cons in Hin as [[= -> ->]|Hin]; simpl.
    + rewrite js_define_all_lookup_fresh by done.
      unfold js_define. apply lookup_insert_eq.
    + by apply IH.
Qed.

(** Every property of the object was written in the literal. *)
Lemma js_object_lookup_Some props k v :
  js_object props !! k = Some v → (k, v) ∈ props.
Proof.
  intros [?|Hempty]%js_define_all_lookup_Some; [done|].
  by rewrite lookup_empty in Hempty.
Qed.

(** A key the literal does not write is not a property. *)
Lemma js_object_lookup_None props k :
  k ∉ props.*1 → js_object props !! k = None.
Proof.
  intros Hk. unfold js_object. rewrite js_define_all_lookup_fresh by done. apply lookup_empty.
Qed.

(** When no key is written twice, the object holds exactly what is written. *)
Lemma js_object_lookup_NoDup props k v :
  NoDup props.*1 → js_object props !! k = Some v ↔ (k, v) ∈ props.
Proof.
  intros Hnd. split; [apply js_object_lookup_Some|].
  by apply js_define_all_lookup_NoDup.
Qed.

(** A key written again takes the later value. *)
Lemma js_object_last_wins props k v :
  js_object (props ++ [(k, v)]) !! k = Some v.
Proof.
  unfold js_object. rewrite foldl_snoc. unfold js_define. apply lookup_insert_eq.
Qed.

End js_object.

(** ** Arrays *)

Section js_arrays.
Context {A : Type}.
Implicit Types (a : list A) (i : Z).

Lemma js_index_Some a i x :
  js_index a i = Some x ↔ 0 ≤ i ∧ a !! Z.to_nat i = Some x.
Proof.
  unfold js_index. destruct (Z.ltb_spec i 0).
  - split; [done|]. intros [? _]; lia.
  - split; [intros ?; split; [lia|done]|by intros [_ ?]].
Qed.

Lemma js_index_is_Some a i :
  is_Some (js_index a i) ↔ 0 ≤ i < Z.of_nat (length a).
Proof.
  unfold js_index. destruct (Z.ltb_spec i 0).
  - split; [by intros [? ?]|lia].
  - rewrite lookup_lt_is_Some. lia.
Qed.

End js_arrays.

Lemma js_indexOf_range (a : list string) x :
  -1 ≤ js_indexOf a x < Z.of_nat (length a).
Proof.
  induction a as [|y a IH]; simpl; [lia|].
  case_decide; [lia|]. destruct (Z.ltb_spec (js_indexOf a x) 0); lia.
Qed.

(** [indexOf] answers [-1] exactly for the strings the array does not hold. *)
Lemma js_indexOf_absent (a : list string) x :
  js_indexOf a x = -1 ↔ x ∉ a.
Proof.
  induction a as [|y a IH]; simpl.
  - split; [intros _; apply not_elem_of_nil|done].
  - rewrite not_elem_of_cons. pose proof (js_indexOf_range a x).
    case_decide as Hy; [split; [lia|intros [? _]; congruence]|].
    destruct (Z.ltb_spec (js_indexOf a x) 0).
    + split; [|done]. intros _. split; [done|]. apply IH. lia.
    + split; [lia|]. intros [_ Hx%IH]. lia.
Qed.

(** Reading the array at the position [indexOf] finds gives the string back. *)
Lemma js_index_indexOf (a : list string) x :
  x ∈ a → js_index a (js_indexOf a x) = Some x.
Proof.
  induction a as [|y a IH]; simpl; intros Hx.
  - by apply elem_of_nil in Hx.
  - case_decide as Hy; [by subst|].
    apply elem_of_cons in Hx as [->|Hx]; [done|].
    specialize (IH Hx). apply js_index_Some in IH as [Hpos IH].
    destruct (Z.ltb_spec (js_indexOf a x) 0); [lia|].
    apply js_index_Some. split; [lia|].
    replace (Z.to_nat (js_indexOf a x + 1)) with (S (Z.to_nat (js_indexOf a x)))
      by lia.
    done.
Qed.

(** In an array without repetitions [indexOf] inverts indexing. *)
Lemma js_indexOf_index (a : list string) i x :
  NoDup a → js_index a i = Some x → js_indexOf a x = i.
Proof.
  revert i. induction a as [|y a IH]; intros i Hnd [Hi Hx]%js_index_Some.
  - done.
  - apply NoDup_cons in Hnd as [Hy Hnd]. simpl.
    destruct (Z.to_nat i) as [|n] eqn:Hn; simpl in Hx.
    + injection Hx as ->. rewrite decide_True by done. lia.
    + assert (x ∈ a) by (by eapply list_elem_of_lookup_2).
      rewrite decide_False by (intros ->; done).
      rewrite (IH (Z.of_nat n)); [|done|].
      * destruct (Z.ltb_spec (Z.of_nat n) 0); lia.
      * apply js_index_Some. split; [lia|]. by rewrite Nat2Z.id.
Qed.

(** ** The lookup over a term index *)

Lemma elem_of_lookup_terms m (tm : gmap string posting) query d :
  d ∈ lookup_terms m tm query ↔
  ∃ k p, tm !! k = Some p ∧ term_matches m query k = true ∧ d ∈ posting_docs p.
Proof.
  unfold lookup_terms. rewrite elem_of_union_list. split.
  - intros (X & HX & Hd).
    apply list_elem_of_fmap in HX as ([k p] & -> & Hkp).
    apply list_elem_of_filter in Hkp as [Hm Hkp].
    apply elem_of_map_to_list in Hkp. apply elem_of_list_to_set in Hd. eauto.
  - intros (k & p & Hkp & Hm & Hd).
    exists (list_to_set (posting_docs p)). split; [|by apply elem_of_list_to_set].
    apply list_elem_of_fmap. exists (k, p). split; [done|].
    apply list_elem_of_filter. split; [done|]. by apply elem_of_map_to_list.
Qed.

(** Matching exactly, at most the posting stored under the query is found. *)
Lemma lookup_terms_exact (tm : gmap string posting) query :
  lookup_terms Exact tm query =
  match tm !! query with
  | Some p => list_to_set (posting_docs p)
  | None => ∅
  end.
Proof.
  apply set_eq; intros d. rewrite elem_of_lookup_terms. split.
  - intros (k & p & Hkp & Hm & Hd). simpl in Hm.
    apply bool_decide_eq_true in Hm as ->. rewrite Hkp.
    by apply elem_of_list_to_set.
  - destruct (tm !! query) as [p|] eqn:Hq.
    + intros Hd%elem_of_list_to_set. exists query, p.
      split_and!; [done| |done]. simpl. by apply bool_decide_eq_true.
    + by intros ?%not_elem_of_empty.
Qed.

Lemma lookup_loaded_unfold m query :
  lookup_loaded m query = lookup_terms m (terms index_literal) query.
Proof. reflexivity. Qed.

(** ** The literal *)

(** No object of the literal writes a key twice, so each object holds exactly
    the properties that are written. *)
Lemma terms_literal_keys : NoDup terms_literal.*1.
Proof. by_evaluation. Qed.






Lemma terms_lookup_literal t p :
  terms index_literal !! t = Some p ↔ (t, p) ∈ terms_literal.
Proof. apply js_object_lookup_NoDup, terms_literal_keys. Qed.

Lemma terms_lookup_unwritten t :
  t ∉ terms_literal.*1 → terms index_literal !! t = None.
Proof. apply js_object_lookup_None. Qed.

Lemma docnames_length : length (docnames index_literal) = 3%nat.
Proof. reflexivity. Qed.

Lemma valid_doc_cases d :
  valid_doc index_literal d ↔ d = 0 ∨ d = 1 ∨ d = 2.
Proof. unfold valid_doc. rewrite docnames_length. lia. Qed.

Lemma terms_postings_valid :
  map_Forall (fun _ p => Forall (valid_doc index_literal) (posting_docs p))
    (terms index_literal).
Proof. by_evaluation. Qed.

Lemma terms_postings_ascending :
  map_Forall (fun _ p => StronglySorted Z.lt (posting_docs p))
    (terms index_literal).
Proof. by_evaluation. Qed.

Lemma terms_postings_nonempty :
  map_Forall (fun _ p => posting_docs p ≠ []) (terms index_literal).
Proof. by_evaluation. Qed.

Lemma terms_postings_single_bare :
  map_Forall (fun _ p => length (posting_docs p) = 1%nat → stored_bare p = true)
    (terms index_literal).
Proof. by_evaluation. Qed.

Lemma StronglySorted_lt_NoDup (l : list Z) : StronglySorted Z.lt l → NoDup l.
Proof.
  induction 1 as [|x l _ IH Hx]; [apply NoDup_nil_2|].
  apply NoDup_cons. split; [|done].
  intros Hin. eapply Forall_forall in Hx; [|done]. lia.
Qed.

Lemma objects_entries_in_range :
  map_Forall (fun _ inner =>
    map_Forall (fun _ e =>
      obj_type e ∈ [0; 1; 2] ∧ valid_doc index_literal (obj_doc e)) inner)
    (objects index_literal).
Proof. by_evaluation. Qed.

(** ** Invariants of the generated index *)

(** C1: every document identifier in a posting of [terms], written bare or in
    an array, is a position of [docnames]: an integer from 0 up to the length
    of [docnames], which here means 0, 1 or 2. *)
Theorem terms_reference_valid_docs (t : string) (p : posting) (d : Z) :
  terms index_literal !! t = Some p →
  d ∈ posting_docs p →
  0 ≤ d < Z.of_nat (length (docnames index_literal)) ∧
  is_Some (js_index (docnames index_literal) d) ∧
  (d = 0 ∨ d = 1 ∨ d = 2).
Proof.
  intros Ht Hd.
  pose proof (map_Forall_lookup_1 _ _ _ _ terms_postings_valid Ht) as Hall.
  rewrite Forall_forall in Hall. specialize (Hall d Hd).
  split_and!; [apply Hall..| |].
  - by apply js_index_is_Some.
  - by apply valid_doc_cases.
Qed.

Lemma terms_reference_valid_docs_witness :
  terms index_literal !! "4x4" = Some (Docs [1; 2]) ∧
  2 ∈ posting_docs (Docs [1; 2]) ∧
  0 ≤ 2 < Z.of_nat (length (docnames index_literal)) ∧
  is_Some (js_index (docnames index_literal) 2).
Proof.
  assert (Ht : terms index_literal !! "4x4" = Some (Docs [1; 2]))
    by (vm_compute; reflexivity).
  assert (Hd : 2 ∈ posting_docs (Docs [1; 2])) by by_evaluation.
  destruct (terms_reference_valid_docs "4x4" (Docs [1; 2]) 2 Ht Hd)
    as (Hrange & Hsome & _).
  exact (conj Ht (conj Hd (conj Hrange Hsome))).
Defined.

(** C4: document identifiers are unique.  [docnames] holds no name twice; for
    every valid identifier [i], mapping the name [docnames[i]] back to its
    position gives [i], and no other name is mapped to [i]. *)
Theorem docnames_unique (i : Z) (name : string) :
  js_index (docnames index_literal) i = Some name →
  NoDup (docnames index_literal) ∧
  js_indexOf (docnames index_literal) name = i ∧
  (∀ name', js_indexOf (docnames index_literal) name' = i → name' = name).
Proof.
  intros Hi.
  assert (Hnd : NoDup (docnames index_literal)) by by_evaluation.
  split_and!; [done|by apply js_indexOf_index|].
  intros name' Hname'.
  assert (Hin : name' ∈ docnames index_literal).
  { destruct (decide (name' ∈ docnames index_literal)) as [|Hout]; [done|].
    apply js_indexOf_absent in Hout. apply js_index_Some in Hi as [? _]. lia. }
  apply js_index_indexOf in Hin. rewrite Hname' in Hin. congruence.
Qed.

Lemma docnames_unique_witness :
  js_index (docnames index_literal) 1 = Some "intro" ∧
  js_indexOf (docnames index_literal) "intro" = 1.
Proof.
  assert (Hi : js_index (docnames index_literal) 1 = Some "intro")
    by reflexivity.
  exact (conj Hi (proj1 (proj2 (docnames_unique 1 "intro" Hi)))).
Defined.

(** C5: every object of [objects], named by its prefix and its name, carries a
    kind that is a key of [objtypes] and of [objnames] (0 is the module, 1 the
    class and 2 the method kind) and an owning document that is a position of
    [docnames]. *)
Theorem objects_metadata_valid (prefix name : string)
    (inner : gmap string objentry) (e : objentry) :
  objects index_literal !! prefix = Some inner →
  inner !! name = Some e →
  (∃ ty nm,
     js_prop (objtypes index_literal) (obj_type e) = Some ty ∧
     js_prop (objnames index_literal) (obj_type e) = Some nm ∧
     (obj_type e, on_type nm) ∈ [(0, "module"); (1, "class"); (2, "method")] ∧
     ty = on_domain nm +:+ ":" +:+ on_type nm) ∧
  is_Some (js_index (docnames index_literal) (obj_doc e)).
Proof.
  intros Hprefix Hname.
  pose proof (map_Forall_lookup_1 _ _ _ _ objects_entries_in_range Hprefix)
    as Hinner.
  destruct (map_Forall_lookup_1 _ _ _ _ Hinner Hname) as [Hkind Hdoc].
  split; [|by apply js_index_is_Some].
  apply elem_of_cons in Hkind as [->|Hkind];
    [exists "py:module", (ObjName "py" "module" "Python module")|].
  2: apply elem_of_cons in Hkind as [->|Hkind];
    [exists "py:class", (ObjName "py" "class" "Python class")|].
  3: apply elem_of_cons in Hkind as [->|Hkind];
    [exists "py:method", (ObjName "py" "method" "Python method")|].
  4: destruct (not_elem_of_nil _ Hkind).
  all: split_and!; [by vm_compute|by vm_compute|by_evaluation|by vm_compute].
Qed.

Lemma objects_metadata_valid_witness :
  let inner : gmap string objentry :=
    js_object [("Link", ObjEntry 2 1 1 EmptyString)] in
  let e := ObjEntry 2 1 1 EmptyString in
  objects index_literal !! "ropy.robot.Link" = Some inner ∧
  inner !! "Link" = Some e ∧
  is_Some (js_index (docnames index_literal) (obj_doc e)).
Proof.
  intros inner e.
  assert (Hprefix : objects index_literal !! "ropy.robot.Link" = Some inner)
    by (vm_compute; reflexivity).
  assert (Hname : inner !! "Link" = Some e) by (vm_compute; reflexivity).
  exact (conj Hprefix (conj Hname
    (proj2 (objects_metadata_valid _ _ _ _ Hprefix Hname)))).
Defined.

(** C8: every posting of [terms] that is an array is strictly ascending in
    the document identifier, hence free of repetitions. *)
Theorem terms_lists_strictly_ascending (t : string) (ds : list Z) :
  terms index_literal !! t = Some (Docs ds) →
  NoDup ds ∧ StronglySorted Z.lt ds.
Proof.
  intros Ht.
  pose proof (map_Forall_lookup_1 _ _ _ _ terms_postings_ascending Ht) as Hs.
  simpl in Hs. split; [by apply StronglySorted_lt_NoDup|done].
Qed.

Lemma terms_lists_strictly_ascending_witness :
  terms index_literal !! "function" = Some (Docs [0; 1]) ∧
  NoDup [0; 1] ∧ StronglySorted Z.lt [0; 1].
Proof.
  assert (Ht : terms index_literal !! "function" = Some (Docs [0; 1]))
    by (vm_compute; reflexivity).
  exact (conj Ht (terms_lists_strictly_ascending "function" [0; 1] Ht)).
Defined.

(** C9: [docnames], [filenames] and [titles] all have length 3, and for every
    valid document identifier [i] the three tables have an entry, the one of
    [filenames] being [docnames[i]] followed by [.rst]. *)
Theorem document_tables_aligned :
  length (docnames index_literal) = 3%nat ∧
  length (filenames index_literal) = 3%nat ∧
  length (titles index_literal) = 3%nat ∧
  ∀ i, valid_doc index_literal i →
    ∃ name title,
      js_index (docnames index_literal) i = Some name ∧
      js_index (filenames index_literal) i = Some (name +:+ ".rst") ∧
      js_index (titles index_literal) i = Some title.
Proof.
  split_and!; [reflexivity..|].
  intros i [-> | [-> | ->]]%valid_doc_cases; eexists _, _;
    split_and!; reflexivity.
Qed.

Lemma document_tables_aligned_witness :
  valid_doc index_literal 2 ∧
  ∃ name title,
    js_index (docnames index_literal) 2 = Some name ∧
    js_index (filenames index_literal) 2 = Some (name +:+ ".rst") ∧
    js_index (titles index_literal) 2 = Some title.
Proof.
  assert (Hi : valid_doc index_literal 2) by (unfold valid_doc; simpl; lia).
  exact (conj Hi (proj2 (proj2 (proj2 document_tables_aligned)) 2 Hi)).
Defined.

(** C10: a term of [terms] with exactly one document is written as a bare
    number, never as a one-element array; both shapes occur, as in
    ["class":0] and ["4x4":[1,2]]. *)
Theorem single_document_stored_bare :
  (∀ t p, terms index_literal !! t = Some p →
     length (posting_docs p) = 1%nat → ∃ d, p = Doc d) ∧
  terms index_literal !! "class" = Some (Doc 0) ∧
  terms index_literal !! "4x4" = Some (Docs [1; 2]).
Proof.
  split_and!; [|by vm_compute..].
  intros t p Ht Hlen.
  pose proof (map_Forall_lookup_1 _ _ _ _ terms_postings_single_bare Ht Hlen)
    as Hbare.
  destruct p as [d|ds]; [by exists d|discriminate].
Qed.

Lemma single_document_stored_bare_witness :
  terms index_literal !! "zip" = Some (Doc 1) ∧
  length (posting_docs (Doc 1)) = 1%nat ∧
  ∃ d, Doc 1 = Doc d.
Proof.
  assert (Ht : terms index_literal !! "zip" = Some (Doc 1))
    by (vm_compute; reflexivity).
  assert (Hlen : length (posting_docs (Doc 1)) = 1%nat) by reflexivity.
  exact (conj Ht (conj Hlen
    (proj1 single_document_stored_bare "zip" (Doc 1) Ht Hlen))).
Defined.

(** ** Lookups on the loaded page *)

Lemma list_to_set_nonempty (l : list Z) :
  l ≠ [] → list_to_set (C := gset Z) l ≠ ∅.
Proof.
  destruct l as [|x l]; [done|]. intros _ Hempty.
  apply (not_elem_of_empty (C := gset Z) x). rewrite <- Hempty.
  apply elem_of_list_to_set, elem_of_cons. by left.
Qed.

(** A query that no indexed term matches finds nothing, whatever the mode. *)
Lemma lookup_terms_unmatched m (tm : gmap string posting) query :
  (∀ k, is_Some (tm !! k) → term_matches m query k = false) →
  lookup_terms m tm query = ∅.
Proof.
  intros Hnone. apply set_eq; intros d. split.
  - intros (k & p & Hk & Hm & _)%elem_of_lookup_terms.
    rewrite Hnone in Hm by eauto. discriminate.
  - by intros ?%not_elem_of_empty.
Qed.

Lemma lookup_loaded_exact_None t :
  terms index_literal !! t = None → lookup_loaded Exact t = ∅.
Proof.
  intros Ht. by rewrite lookup_loaded_unfold, lookup_terms_exact, Ht.
Qed.



Lemma prefix_refl (t : string) : String.prefix t t = true.
Proof.
  induction t as [|a t IH]; simpl; [done|].
  by destruct (ascii_dec a a).
Qed.

(** In either mode a string matches itself. *)
Lemma term_matches_self m t : term_matches m t t = true.
Proof.
  destruct m; simpl; [by apply bool_decide_eq_true|apply prefix_refl].
Qed.

(** What a lookup finds, read off the two shapes of a posting. *)
Lemma elem_of_lookup_loaded m t d :
  d ∈ lookup_loaded m t ↔
  ∃ k, term_matches m t k = true ∧
       (terms index_literal !! k = Some (Doc d) ∨
        ∃ ds, terms index_literal !! k = Some (Docs ds) ∧ d ∈ ds).
Proof.
  rewrite lookup_loaded_unfold, elem_of_lookup_terms. split.
  - intros (k & [d'|ds] & Hk & Hm & Hd); exists k; (split; [exact Hm|]).
    + apply list_elem_of_singleton in Hd as ->. left. exact Hk.
    + right. exists ds. exact (conj Hk Hd).
  - intros (k & Hm & [Hk|(ds & Hk & Hd)]).
    + exists k, (Doc d).
      exact (conj Hk (conj Hm (proj2 (list_elem_of_singleton d d) eq_refl))).
    + exists k, (Docs ds). exact (conj Hk (conj Hm Hd)).
Qed.

(** A lookup finds something exactly when some key matches the query: no key
    of [terms] has an empty posting. *)
Lemma lookup_loaded_nonempty m t :
  lookup_loaded m t ≠ ∅ ↔
  ∃ k, is_Some (terms index_literal !! k) ∧ term_matches m t k = true.
Proof.
  rewrite lookup_loaded_unfold. split.
  - intros [d Hd]%set_choose_L.
    apply elem_of_lookup_terms in Hd as (k & p & Hk & Hm & _).
    exists k. exact (conj (ex_intro _ p Hk) Hm).
  - intros (k & [p Hk] & Hm) Hempty.
    pose proof (map_Forall_lookup_1 _ _ _ _ terms_postings_nonempty Hk) as Hne.
    cbv beta in Hne.
    destruct (posting_docs p) as [|d ds] eqn:Hp; [exact (Hne eq_refl)|].
    apply (not_elem_of_empty (C := gset Z) d). rewrite <- Hempty.
    apply elem_of_lookup_terms. exists k, p.
    split_and!; [exact Hk|exact Hm|]. rewrite Hp. apply elem_of_cons; by left.
Qed.

Lemma lookup_loaded_unmatched m t :
  (∀ k, is_Some (terms index_literal !! k) → term_matches m t k = false) →
  lookup_loaded m t = ∅.
Proof. rewrite lookup_loaded_unfold. apply lookup_terms_unmatched. Qed.

Lemma terms_no_empty_array t : terms index_literal !! t ≠ Some (Docs []).
Proof.
  intros Ht.
  exact (map_Forall_lookup_1 _ _ _ _ terms_postings_nonempty Ht eq_refl).
Qed.

(** No key of [terms] starts with [zq], and none with [qz]. *)
Lemma no_term_starts_zq :
  map_Forall (fun k _ => term_matches Prefix "zq" k = false)
    (terms index_literal).
Proof. by_evaluation. Qed.


(** C2, as stated, fails when terms are matched by prefix: [ab] is not a key
    of [terms], yet it is the beginning of keys such as [abil] and [about],
    and looking it up finds the documents 1 and 2. *)
Lemma lookup_unwritten_prefix_counterexample :
  terms index_literal !! "ab" = None ∧
  lookup_loaded Prefix "ab" = {[1; 2]} ∧
  lookup_loaded Prefix "ab" ≠ ∅.
Proof.
  assert (Hfound : lookup_loaded Prefix "ab" = {[1; 2]})
    by (vm_compute; reflexivity).
  split_and!; [by vm_compute|exact Hfound|].
  rewrite Hfound. intros Hempty.
  apply (not_elem_of_empty (C := gset Z) 1). rewrite <- Hempty.
  apply elem_of_union; left. by apply elem_of_singleton.
Qed.

(** C2 (amended): in either mode, looking up a key of [terms] gives a
    non-empty result, no posting being an empty array; a lookup gives the
    empty result exactly when no key matches the query, which for an exact
    match means that the query is not a key. *)
Theorem lookup_present_or_absent (m : match_mode) (t : string) :
  (is_Some (terms index_literal !! t) →
     terms index_literal !! t ≠ Some (Docs []) ∧ lookup_loaded m t ≠ ∅) ∧
  (lookup_loaded m t = ∅ ↔
     ∀ k, is_Some (terms index_literal !! k) → term_matches m t k = false) ∧
  (terms index_literal !! t = None → lookup_loaded Exact t = ∅).
Proof.
  split_and!.
  - intros Hkey. split; [apply terms_no_empty_array|].
    apply lookup_loaded_nonempty. exists t.
    exact (conj Hkey (term_matches_self m t)).
  - split; [|apply lookup_loaded_unmatched].
    intros Hempty k Hk.
    destruct (term_matches m t k) eqn:Hm; [|reflexivity].
    destruct (proj2 (lookup_loaded_nonempty m t)
                (ex_intro _ k (conj Hk Hm)) Hempty).
  - apply lookup_loaded_exact_None.
Qed.

Lemma lookup_present_or_absent_witness :
  (is_Some (terms index_literal !! "abil") ∧
   lookup_loaded Prefix "abil" ≠ ∅) ∧
  ((∀ k, is_Some (terms index_literal !! k) →
         term_matches Prefix "zq" k = false) ∧
   lookup_loaded Prefix "zq" = ∅) ∧
  (terms index_literal !! "zipper" = None ∧
   lookup_loaded Exact "zipper" = ∅).
Proof.
  assert (Habil : is_Some (terms index_literal !! "abil"))
    by (vm_compute; eexists; reflexivity).
  assert (Hzq : ∀ k, is_Some (terms index_literal !! k) →
                     term_matches Prefix "zq" k = false).
  { intros k [p Hk]. exact (map_Forall_lookup_1 _ _ _ _ no_term_starts_zq Hk). }
  assert (Hzipper : terms index_literal !! "zipper" = None)
    by (vm_compute; reflexivity).
  exact (conj
    (conj Habil
       (proj2 (proj1 (lookup_present_or_absent Prefix "abil") Habil)))
    (conj
       (conj Hzq
          (proj2 (proj1 (proj2 (lookup_present_or_absent Prefix "zq"))) Hzq))
       (conj Hzipper
          (proj2 (proj2 (lookup_present_or_absent Exact "zipper")) Hzipper)))).
Defined.

(** C3: matching exactly, the lookup of [t] returns the set of document
    identifiers stored under [t] in [terms]: the one number of a bare posting,
    the members of an array, nothing for a string that is not a key.  In
    general it returns the identifiers stored under the keys that match, with
    no ranking applied; ["4x4"], stored as [[1,2]], finds 1 and 2. *)
Theorem lookup_returns_stored_posting (t : string) :
  lookup_loaded Exact t =
    match terms index_literal !! t with
    | Some (Doc d) => {[d]}
    | Some (Docs ds) => list_to_set ds
    | None => ∅
    end ∧
  (∀ m d, d ∈ lookup_loaded m t ↔
     ∃ k, term_matches m t k = true ∧
          (terms index_literal !! k = Some (Doc d) ∨
           ∃ ds, terms index_literal !! k = Some (Docs ds) ∧ d ∈ ds)) ∧
  lookup_loaded Exact "4x4" = {[1; 2]} ∧
  lookup_loaded Exact "class" = {[0]} ∧
  lookup_loaded Exact "function" = {[0; 1]} ∧
  lookup_loaded Exact "zipper" = ∅.
Proof.
  split_and!; [|intros m d; apply elem_of_lookup_loaded|by vm_compute..].
  rewrite lookup_loaded_unfold, lookup_terms_exact.
  destruct (terms index_literal !! t) as [[d|ds]|]; [|done..].
  unfold posting_docs. apply set_eq; intros d'.
  by rewrite elem_of_list_to_set, list_elem_of_singleton, elem_of_singleton.
Qed.




(** ** The title index *)

Lemma titleterms_postings_checked :
  map_Forall (fun _ p =>
    posting_docs p ≠ [] ∧
    Forall (valid_doc index_literal) (posting_docs p) ∧
    StronglySorted Z.lt (posting_docs p) ∧
    (length (posting_docs p) = 1%nat → stored_bare p = true))
    (titleterms index_literal).
Proof. by_evaluation. Qed.

(** X1: the postings of [titleterms] are shaped like those of [terms]: never
    empty, naming only positions of [docnames], strictly ascending, and a bare
    number whenever there is one document. *)
Theorem titleterms_postings_well_formed (t : string) (p : posting) :
  titleterms index_literal !! t = Some p →
  posting_docs p ≠ [] ∧
  (∀ d, d ∈ posting_docs p →
     is_Some (js_index (docnames index_literal) d)) ∧
  StronglySorted Z.lt (posting_docs p) ∧
  (length (posting_docs p) = 1%nat → ∃ d, p = Doc d).
Proof.
  intros Ht.
  destruct (map_Forall_lookup_1 _ _ _ _ titleterms_postings_checked Ht)
    as (Hne & Hvalid & Hsorted & Hbare).
  split_and!; [done| |done|].
  - intros d Hd. rewrite Forall_forall in Hvalid.
    by apply js_index_is_Some, Hvalid.
  - intros Hlen. specialize (Hbare Hlen).
    destruct p as [d|ds]; [by exists d|discriminate].
Qed.

Lemma titleterms_postings_well_formed_witness :
  titleterms index_literal !! "class" = Some (Docs [1; 2]) ∧
  StronglySorted Z.lt (posting_docs (Docs [1; 2])).
Proof.
  assert (Ht : titleterms index_literal !! "class" = Some (Docs [1; 2]))
    by (vm_compute; reflexivity).
  exact (conj Ht
    (proj1 (proj2 (proj2 (titleterms_postings_well_formed _ _ Ht))))).
Defined.

Lemma terms_avoid_title_docs :
  map_Forall (fun w p =>
    Forall (fun d => d ∉ title_docs index_literal w) (posting_docs p))
    (terms index_literal).
Proof. by_evaluation. Qed.

(** X2: a word never lists the same document in [terms] and in [titleterms]: a
    document found through its title is not found again through its text. *)
Theorem title_and_text_postings_disjoint (w : string) (p q : posting) (d : Z) :
  terms index_literal !! w = Some p →
  titleterms index_literal !! w = Some q →
  d ∈ posting_docs p →
  d ∉ posting_docs q.
Proof.
  intros Hp Hq Hd.
  pose proof (map_Forall_lookup_1 _ _ _ _ terms_avoid_title_docs Hp) as Hall.
  rewrite Forall_forall in Hall. specialize (Hall d Hd).
  unfold title_docs in Hall. by rewrite Hq in Hall.
Qed.

Lemma title_and_text_postings_disjoint_witness :
  terms index_literal !! "class" = Some (Doc 0) ∧
  titleterms index_literal !! "class" = Some (Docs [1; 2]) ∧
  0 ∉ posting_docs (Docs [1; 2]).
Proof.
  assert (Hp : terms index_literal !! "class" = Some (Doc 0))
    by (vm_compute; reflexivity).
  assert (Hq : titleterms index_literal !! "class" = Some (Docs [1; 2]))
    by (vm_compute; reflexivity).
  assert (Hd : 0 ∈ posting_docs (Doc 0)) by by_evaluation.
  exact (conj Hp (conj Hq
    (title_and_text_postings_disjoint "class" _ _ 0 Hp Hq Hd))).
Defined.

Lemma terms_keys_words :
  map_Forall (fun w _ => indexed_word w) (terms index_literal).
Proof. by_evaluation. Qed.

Lemma titleterms_keys_words :
  map_Forall (fun w _ => indexed_word w) (titleterms index_literal).
Proof. by_evaluation. Qed.

(** X3: every key of [terms] and of [titleterms] is a word of at least three
    characters, each a letter, a digit or an underscore. *)
Theorem indexed_terms_are_words (w : string) :
  is_Some (terms index_literal !! w) ∨ is_Some (titleterms index_literal !! w) →
  (3 ≤ String.length w)%nat ∧
  ∀ c, c ∈ list_ascii_of_string w → word_char c = true.
Proof.
  intros Hkey.
  assert (Hword : indexed_word w).
  { destruct Hkey as [[p Hp]|[q Hq]].
    - exact (map_Forall_lookup_1 _ _ _ _ terms_keys_words Hp).
    - exact (map_Forall_lookup_1 _ _ _ _ titleterms_keys_words Hq). }
  destruct Hword as [Hlen Hchars]. split; [done|].
  by rewrite Forall_forall in Hchars.
Qed.

Lemma indexed_terms_are_words_witness :
  is_Some (terms index_literal !! "wrist_flip") ∧
  (3 ≤ String.length "wrist_flip")%nat.
Proof.
  assert (Hkey : is_Some (terms index_literal !! "wrist_flip"))
    by (vm_compute; eexists; reflexivity).
  exact (conj Hkey (proj1 (indexed_terms_are_words _ (or_introl Hkey)))).
Defined.

(** ** The object index *)

Lemma object_entry_Some idx prefix name e :
  object_entry idx prefix name = Some e ↔
  ∃ inner, objects idx !! prefix = Some inner ∧ inner !! name = Some e.
Proof.
  unfold object_entry. destruct (objects idx !! prefix) as [inner|]; simpl.
  - split; [by exists inner|]. by intros (? & [= <-] & ?).
  - split; [done|]. by intros (? & [=] & _).
Qed.

Lemma objects_nesting_checked :
  map_Forall (fun prefix inner =>
    map_Forall (fun name e =>
      (obj_type e = 2 → objects index_literal !! qualified prefix name = None) ∧
      (obj_type e ≠ 2 →
         is_Some (objects index_literal !! qualified prefix name)) ∧
      map_Forall (fun _ e' => obj_type e' = obj_type e + 1)
        (object_members index_literal (qualified prefix name))) inner)
    (objects index_literal).
Proof. by_evaluation. Qed.

(** X4: objects nest by kind: a method has no members, a module or class has an
    entry of its own in [objects] under its full name, and each of its members
    is of the next kind (classes in modules, methods in classes). *)
Theorem objects_nest_by_kind (prefix name : string) (e : objentry) :
  object_entry index_literal prefix name = Some e →
  (obj_type e = 2 →
     objects index_literal !! qualified prefix name = None) ∧
  (obj_type e ≠ 2 →
     is_Some (objects index_literal !! qualified prefix name)) ∧
  (∀ name' e',
     object_entry index_literal (qualified prefix name) name' = Some e' →
     obj_type e' = obj_type e + 1).
Proof.
  intros (inner & Hprefix & Hname)%object_entry_Some.
  pose proof (map_Forall_lookup_1 _ _ _ _ objects_nesting_checked Hprefix)
    as Hinner.
  destruct (map_Forall_lookup_1 _ _ _ _ Hinner Hname)
    as (Hleaf & Hnode & Hmembers).
  split_and!; [done..|].
  intros name' e' (inner' & Hq & Hname')%object_entry_Some.
  unfold object_members in Hmembers. rewrite Hq in Hmembers.
  exact (map_Forall_lookup_1 _ _ _ _ Hmembers Hname').
Qed.

Lemma objects_nest_by_kind_witness :
  object_entry index_literal "ropy.robot" "Link" = Some (ObjEntry 2 0 0 "-") ∧
  is_Some (objects index_literal !! qualified "ropy.robot" "Link").
Proof.
  assert (He : object_entry index_literal "ropy.robot" "Link"
               = Some (ObjEntry 2 0 0 "-")) by (vm_compute; reflexivity).
  assert (Hkind : obj_type (ObjEntry 2 0 0 "-") ≠ 2) by (simpl; lia).
  exact (conj He
    (proj1 (proj2 (objects_nest_by_kind _ _ _ He)) Hkind)).
Defined.

Lemma objects_literal_key_list :
  objects_literal.*1 =
  ["ropy.robot"; "ropy.robot.Link"; "ropy.robot.Link.Link";
   "ropy.robot.Prismatic"; "ropy.robot.Prismatic.Prismatic";
   "ropy.robot.Revolute"; "ropy.robot.Revolute.Revolute";
   "ropy.robot.SerialLink"; "ropy.robot.SerialLink.SerialLink"].
Proof. reflexivity. Qed.

(** X5: every key of [objects] other than the package [ropy.robot] is the full
    name of a module or class listed under another key: no group of objects
    hangs loose. *)
Theorem objects_prefixes_have_parents (prefix : string)
    (inner : gmap string objentry) :
  objects index_literal !! prefix = Some inner →
  prefix = "ropy.robot" ∨
  ∃ parent name e,
    prefix = qualified parent name ∧
    object_entry index_literal parent name = Some e ∧
    obj_type e ≠ 2.
Proof.
  intros Hprefix%js_object_lookup_Some.
  apply (list_elem_of_fmap_2 fst) in Hprefix.
  change (prefix ∈ objects_literal.*1) in Hprefix.
  rewrite objects_literal_key_list in Hprefix.
  repeat (apply elem_of_cons in Hprefix as [->|Hprefix]);
    [by left|..|destruct (not_elem_of_nil _ Hprefix)]; right.
  - exists "ropy.robot", "Link", (ObjEntry 2 0 0 "-").
    split_and!; [reflexivity|by vm_compute|simpl; lia].
  - exists "ropy.robot.Link", "Link", (ObjEntry 2 1 1 EmptyString).
    split_and!; [reflexivity|by vm_compute|simpl; lia].
  - exists "ropy.robot", "Prismatic", (ObjEntry 2 0 0 "-").
    split_and!; [reflexivity|by vm_compute|simpl; lia].
  - exists "ropy.robot.Prismatic", "Prismatic", (ObjEntry 2 1 1 EmptyString).
    split_and!; [reflexivity|by vm_compute|simpl; lia].
  - exists "ropy.robot", "Revolute", (ObjEntry 2 0 0 "-").
    split_and!; [reflexivity|by vm_compute|simpl; lia].
  - exists "ropy.robot.Revolute", "Revolute", (ObjEntry 2 1 1 EmptyString).
    split_and!; [reflexivity|by vm_compute|simpl; lia].
  - exists "ropy.robot", "SerialLink", (ObjEntry 2 0 0 "-").
    split_and!; [reflexivity|by vm_compute|simpl; lia].
  - exists "ropy.robot.SerialLink", "SerialLink", (ObjEntry 2 1 1 EmptyString).
    split_and!; [reflexivity|by vm_compute|simpl; lia].
Qed.

Lemma objects_prefixes_have_parents_witness :
  is_Some (objects index_literal !! "ropy.robot.Link") ∧
  ("ropy.robot.Link" = "ropy.robot" ∨
   ∃ parent name e,
     "ropy.robot.Link" = qualified parent name ∧
     object_entry index_literal parent name = Some e ∧
     obj_type e ≠ 2).
Proof.
  assert (Hprefix : objects index_literal !! "ropy.robot.Link"
                    = Some (js_object [("Link", ObjEntry 2 1 1 EmptyString)]))
    by (vm_compute; reflexivity).
  exact (conj (ex_intro _ _ Hprefix)
    (objects_prefixes_have_parents _ _ Hprefix)).
Defined.

Lemma objtypes_literal_key_list : objtypes_literal.*1 = ["0"; "1"; "2"].
Proof. reflexivity. Qed.

(** X6: the kinds that [objtypes] names are exactly the kinds some object of
    [objects] has: none is missing and none is unused. *)
Theorem object_kinds_exact (k : string) :
  is_Some (objtypes index_literal !! k) ↔
  ∃ prefix name e,
    object_entry index_literal prefix name = Some e ∧
    js_key (obj_type e) = k.
Proof.
  split.
  - intros [ty Hk%js_object_lookup_Some].
    apply (list_elem_of_fmap_2 fst) in Hk.
    change (k ∈ objtypes_literal.*1) in Hk.
    rewrite objtypes_literal_key_list in Hk.
    repeat (apply elem_of_cons in Hk as [->|Hk]);
      [..|destruct (not_elem_of_nil _ Hk)].
    + exists "ropy.robot", "Link", (ObjEntry 2 0 0 "-").
      split; by vm_compute.
    + exists "ropy.robot.Link", "Link", (ObjEntry 2 1 1 EmptyString).
      split; by vm_compute.
    + exists "ropy.robot.Link.Link", "A", (ObjEntry 2 2 1 EmptyString).
      split; by vm_compute.
  - intros (prefix & name & e & (inner & Hprefix & Hname)%object_entry_Some
            & <-).
    pose proof (map_Forall_lookup_1 _ _ _ _ objects_entries_in_range Hprefix)
      as Hinner.
    destruct (map_Forall_lookup_1 _ _ _ _ Hinner Hname) as [Hkind _].
    repeat (apply elem_of_cons in Hkind as [->|Hkind]);
      [..|destruct (not_elem_of_nil _ Hkind)];
      vm_compute; eexists; reflexivity.
Qed.

(** X7: [objtypes] and [objnames] describe the same kinds: a key has a value in
    [objtypes] exactly when it has one in [objnames], and the former is the
    domain and type of the latter joined by a colon. *)
Theorem objtypes_objnames_agree (k ty : string) :
  objtypes index_literal !! k = Some ty ↔
  ∃ nm, objnames index_literal !! k = Some nm ∧
        ty = on_domain nm +:+ ":" +:+ on_type nm.
Proof.
  split.
  - intros Hk%js_object_lookup_Some. unfold objtypes_literal in Hk.
    repeat (apply elem_of_cons in Hk as [[= -> ->]|Hk]);
      [..|destruct (not_elem_of_nil _ Hk)];
      eexists; (split; [by vm_compute|reflexivity]).
  - intros (nm & Hk%js_object_lookup_Some & ->). unfold objnames_literal in Hk.
    repeat (apply elem_of_cons in Hk as [[= -> ->]|Hk]);
      [..|destruct (not_elem_of_nil _ Hk)]; by vm_compute.
Qed.

Lemma objects_entries_regular :
  map_Forall (fun _ inner =>
    map_Forall (fun _ e =>
      obj_doc e = 2 ∧
      (obj_type e = 0 ∧ obj_prio e = 0 ∧ obj_anchor e = "-" ∨
       obj_type e ≠ 0 ∧ obj_prio e = 1 ∧ obj_anchor e = EmptyString)) inner)
    (objects index_literal).
Proof. by_evaluation. Qed.

(** X8: every object is documented on page 2, whose name is [roboticstoolbox];
    modules are listed with priority 0 and the anchor [-], classes and methods
    with priority 1 and an empty anchor. *)
Theorem object_entries_by_kind (prefix name : string) (e : objentry) :
  object_entry index_literal prefix name = Some e →
  js_index (docnames index_literal) (obj_doc e) = Some "roboticstoolbox" ∧
  (obj_type e = 0 ∧ obj_prio e = 0 ∧ obj_anchor e = "-" ∨
   obj_type e ≠ 0 ∧ obj_prio e = 1 ∧ obj_anchor e = EmptyString).
Proof.
  intros (inner & Hprefix & Hname)%object_entry_Some.
  pose proof (map_Forall_lookup_1 _ _ _ _ objects_entries_regular Hprefix)
    as Hinner.
  destruct (map_Forall_lookup_1 _ _ _ _ Hinner Hname) as [-> Hkind].
  split; [reflexivity|done].
Qed.

Lemma object_entries_by_kind_witness :
  object_entry index_literal "ropy.robot.SerialLink.SerialLink" "fkine"
    = Some (ObjEntry 2 2 1 EmptyString) ∧
  js_index (docnames index_literal) 2 = Some "roboticstoolbox".
Proof.
  assert (He : object_entry index_literal "ropy.robot.SerialLink.SerialLink"
                 "fkine" = Some (ObjEntry 2 2 1 EmptyString))
    by (vm_compute; reflexivity).
  exact (conj He (proj1 (object_entries_by_kind _ _ _ He))).
Defined.

(** ** The literal as a whole *)

(** X9: every document is listed under some key of [terms] and under some key of
    [titleterms]: no page is out of reach of a search. *)
Theorem every_document_indexed (d : Z) :
  valid_doc index_literal d →
  (∃ t p, terms index_literal !! t = Some p ∧ d ∈ posting_docs p) ∧
  (∃ t q, titleterms index_literal !! t = Some q ∧ d ∈ posting_docs q).
Proof.
  intros [-> | [-> | ->]]%valid_doc_cases; split.
  - exists "introduct", (Doc 0). split; [by vm_compute|by_evaluation].
  - exists "python", (Doc 0). split; [by vm_compute|by_evaluation].
  - exists "index", (Doc 1). split; [by vm_compute|by_evaluation].
  - exists "introduct", (Doc 1). split; [by vm_compute|by_evaluation].
  - exists "search", (Doc 2). split; [by vm_compute|by_evaluation].
  - exists "seriallink", (Doc 2). split; [by vm_compute|by_evaluation].
Qed.

Lemma every_document_indexed_witness :
  valid_doc index_literal 0 ∧
  ∃ t p, terms index_literal !! t = Some p ∧ 0 ∈ posting_docs p.
Proof.
  assert (Hd : valid_doc index_literal 0) by (unfold valid_doc; simpl; lia).
  exact (conj Hd (proj1 (every_document_indexed 0 Hd))).
Defined.

